(** * unrolled/recovery: panic-recovery middleware for net/http

    A shallow embedding of [recovery.go] (package [recovery]) together with
    the parts of the Go standard library the middleware calls into
    ([log], [fmt], [runtime], [net/http], [net/http/httptest]), and the
    properties of the middleware stated over that embedding.

    Go code runs in the monad [M]: it threads a [Heap], may panic with a
    value of type [any], and emits the externally visible calls it makes
    (handler invocations, stack captures, writes to an [io.Writer]) as a
    trace of [Event]s. *)

From stdpp Require Import gmap strings list fin_maps.
From Stdlib Require Import ZArith Strings.Ascii Strings.Byte DecimalString.

Local Open Scope Z_scope.

(** ** Go values that can travel with a panic *)

(** The dynamic value of an [interface{}]: [Nil] is the nil interface,
    [Str] a Go [string], [Err] a value implementing [error] (with the text its
    [Error()] method returns), [Other] a value of some other type, given by the
    name of its type and its default rendering. *)
Inductive any : Type :=
  | Nil
  | Str (s : string)
  | Err (msg : string)
  | Other (ty val : string).

Definition is_nil (v : any) : bool :=
  match v with Nil => true | _ => false end.

(** [[]byte] and its conversion to [string]. *)
Abbreviation bytes := (list byte).

Definition make_bytes (n : Z) : bytes := replicate (Z.to_nat n) x00.

Definition string_of_bytes (b : bytes) : string := String.string_of_list_byte b.

(** The byte ['0' + d], as Go's [byte(...)] conversion computes it. *)
Definition digit (d : Z) : ascii := ascii_of_N (Z.to_N ((48 + d) mod 256)).

Definition newline : string := String (ascii_of_N 10) EmptyString.

(** [s[len(s)-1] == c] for a non-empty [s]; [false] for the empty string. *)
Fixpoint last_is (c : ascii) (s : string) : bool :=
  match s with
  | EmptyString => false
  | String a EmptyString => bool_decide (a = c)
  | String _ r => last_is c r
  end.

(** ** Package [fmt] *)

Module fmt.

(** What the verb [%s] prints for an operand. *)
Definition verb_s (v : any) : string :=
  match v with
  | Nil => "%!s(<nil>)"
  | Str s => s
  | Err msg => msg
  | Other ty val => "%!s(" +:+ ty +:+ "=" +:+ val +:+ ")"
  end.

(** What the verb [%v] prints for an [int]. *)
Definition verb_v_int (i : Z) : string := NilZero.string_of_int (Z.to_int i).

(** [fmt.Sprintf("Recovering from Panic: %s\n%s", err, stack)]. *)
Definition Sprintf_recovering (err : any) (stack : bytes) : string :=
  "Recovering from Panic: " +:+ verb_s err +:+ newline +:+ string_of_bytes stack.

End fmt.

(** ** Package [time]: the broken-down reading of the wall clock *)

Module time.

Record Civil : Type := mkCivil {
  Year : Z; Month : Z; Day : Z;
  Hour : Z; Minute : Z; Second : Z; Nanosecond : Z
}.

(** A [time.Time]: its reading in the local zone and in UTC. *)
Record Time : Type := mkTime { Local : Civil; UTC : Civil }.

End time.

(** ** Package [log] *)

Module log.

Definition Ldate : Z := 1.
Definition Ltime : Z := 2.
Definition Lmicroseconds : Z := 4.
Definition Llongfile : Z := 8.
Definition Lshortfile : Z := 16.
Definition LUTC : Z := 32.
Definition Lmsgprefix : Z := 64.
Definition LstdFlags : Z := Z.lor Ldate Ltime.

(** [flag & mask != 0]. *)
Definition has (flag mask : Z) : bool := negb (Z.land flag mask =? 0).

(** [itoa]: decimal digits of [i], zero-padded to [wid]; the loop fills a
    20-byte array from its end, so it runs at most 19 times for the values
    the header formatter passes. *)
Fixpoint itoa_loop (fuel : nat) (i wid : Z) (b : string) : string :=
  match fuel with
  | O => String (digit i) b
  | S fuel' =>
      if (10 <=? i) || (1 <? wid) then
        let q := Z.quot i 10 in
        itoa_loop fuel' q (wid - 1) (String (digit (i - q * 10)) b)
      else String (digit i) b
  end.

Definition itoa (buf : string) (i wid : Z) : string :=
  buf +:+ itoa_loop 19 i wid EmptyString.

(** [Some t] when [s] contains a ['/'], [t] being what follows the last one. *)
Fixpoint after_last_slash (s : string) : option string :=
  match s with
  | EmptyString => None
  | String c r =>
      match after_last_slash r with
      | Some t => Some t
      | None => if bool_decide (c = "/"%char) then Some r else None
      end
  end.

(** The [Lshortfile] loop: [for i := len(file) - 1; i > 0; i--]; index 0 is
    never inspected. *)
Definition shortfile (file : string) : string :=
  match file with
  | EmptyString => file
  | String _ r =>
      match after_last_slash r with
      | Some t => t
      | None => file
      end
  end.

Record Logger (Writer : Type) : Type := mkLogger {
  out : Writer;
  prefix : string;
  flag : Z
}.
Arguments mkLogger {Writer} _ _ _.
Arguments out {Writer} _.
Arguments prefix {Writer} _.
Arguments flag {Writer} _.

(** [log.New(out, prefix, flag)]. *)
Definition New {Writer : Type} (o : Writer) (p : string) (f : Z) : Logger Writer :=
  mkLogger o p f.

(** The date, time and source-location part of the header: everything
    [formatHeader] appends between its two uses of the prefix. *)
Definition formatMeta (flag : Z) (t : time.Time) (file : string) (line : Z)
    (buf : string) : string :=
  let buf :=
    if has flag (Z.lor Ldate (Z.lor Ltime Lmicroseconds)) then
      let t := if has flag LUTC then time.UTC t else time.Local t in
      let buf :=
        if has flag Ldate then
          let buf := itoa buf (time.Year t) 4 in
          let buf := buf +:+ "/" in
          let buf := itoa buf (time.Month t) 2 in
          let buf := buf +:+ "/" in
          let buf := itoa buf (time.Day t) 2 in
          buf +:+ " "
        else buf in
      if has flag (Z.lor Ltime Lmicroseconds) then
        let buf := itoa buf (time.Hour t) 2 in
        let buf := buf +:+ ":" in
        let buf := itoa buf (time.Minute t) 2 in
        let buf := buf +:+ ":" in
        let buf := itoa buf (time.Second t) 2 in
        let buf :=
          if has flag Lmicroseconds then
            itoa (buf +:+ ".") (Z.quot (time.Nanosecond t) 1000) 6
          else buf in
        buf +:+ " "
      else buf
    else buf in
  if has flag (Z.lor Lshortfile Llongfile) then
    let file := if has flag Lshortfile then shortfile file else file in
    let buf := buf +:+ file in
    let buf := buf +:+ ":" in
    let buf := itoa buf line (-1) in
    buf +:+ ": "
  else buf.

(** [Logger.formatHeader], writing into an empty buffer. *)
Definition formatHeader {Writer : Type} (l : Logger Writer) (t : time.Time)
    (file : string) (line : Z) : string :=
  let buf := EmptyString in
  let buf := if has (flag l) Lmsgprefix then buf else buf +:+ prefix l in
  let buf := formatMeta (flag l) t file line buf in
  if has (flag l) Lmsgprefix then buf +:+ prefix l else buf.

(** The file and line [Logger.Output] passes to the header: asked of
    [runtime.Caller] only under [Lshortfile] or [Llongfile], and replaced by
    a placeholder when the runtime cannot tell. *)
Definition caller_position (flag : Z) (caller : option (string * Z)) : string * Z :=
  if has flag (Z.lor Lshortfile Llongfile) then
    match caller with
    | Some fl => fl
    | None => ("???"%string, 0)
    end
  else (EmptyString, 0).

(** The buffer [Logger.Output] hands to [out.Write]: header, message,
    and a newline when the message does not already end in one. *)
Definition outputLine {Writer : Type} (l : Logger Writer) (t : time.Time)
    (caller : option (string * Z)) (s : string) : string :=
  let '(file, line) := caller_position (flag l) caller in
  let buf := formatHeader l t file line in
  let buf := buf +:+ s in
  if last_is (ascii_of_N 10) s then buf else buf +:+ newline.

End log.

(** ** [io.Writer] values

    The sinks a program can hand to [Options.Out]: the process's standard
    error stream, [ioutil.Discard], or a [bytes.Buffer] (named by its
    address). *)
Inductive Writer : Type :=
  | Stderr
  | Discard
  | Buffer (id : nat).

(** ** Package [net/http] *)

Module http.

Definition StatusOK : Z := 200.
Definition StatusBadRequest : Z := 400.
Definition StatusNotFound : Z := 404.
Definition StatusInternalServerError : Z := 500.

(** [http.StatusText], on the codes this development uses; as in Go, a code
    without an entry gives the empty string. *)
Definition StatusText (code : Z) : string :=
  if code =? 200 then "OK"
  else if code =? 400 then "Bad Request"
  else if code =? 404 then "Not Found"
  else if code =? 500 then "Internal Server Error"
  else EmptyString.

Record Request : Type := mkRequest { Method : string; URL : string }.

(** [h.Get(key)] on a [Header], for a key in canonical form: the first value
    stored under the key, or the empty string. *)
Definition Header_Get (h : gmap string (list string)) (key : string) : string :=
  match h !! key with
  | Some (v :: _) => v
  | _ => EmptyString
  end.

(** Non-nil values of the interface [http.Handler] that a [Recovery] can
    hold as its panic handler: the adapter [http.HandlerFunc] applied to
    [defaultPanicHandler], or any handler of the program, named by an index
    into the program's table of handlers. *)
Inductive Handler : Type :=
  | HandlerFunc_defaultPanicHandler
  | UserHandler (id : nat).

End http.

(** ** Package [net/http/httptest] *)

Module httptest.

Record ResponseRecorder : Type := mkRecorder {
  Code : Z;
  HeaderMap : gmap string (list string);
  Body : string;
  wroteHeader : bool
}.

(** [httptest.NewRecorder()]. *)
Definition NewRecorder : ResponseRecorder :=
  {| Code := 200; HeaderMap := ∅; Body := EmptyString; wroteHeader := false |}.

End httptest.

(** ** Package [recovery]: data *)

(** Options is a struct for specifying configuration parameters for the
    Recovery middleware. [Out] is [None] for a nil [io.Writer]. The two [int]
    fields are integers without a bound: the package compares them and tests
    their bits, and never computes with them, so that nothing depends on the
    width of [int]. *)
Record Options : Type := mkOptions {
  IncludeFullStack : bool;
  StackSize : Z;
  Prefix : string;
  DisableAutoBrackets : bool;
  Out : option Writer;
  OutputFlags : Z
}.

(** The zero value [Options{}]. *)
Definition Options_zero : Options :=
  {| IncludeFullStack := false; StackSize := 0; Prefix := EmptyString;
     DisableAutoBrackets := false; Out := None; OutputFlags := 0 |}.

(** [o.StackSize = n]. *)
Definition set_StackSize (o : Options) (n : Z) : Options :=
  {| IncludeFullStack := IncludeFullStack o; StackSize := n; Prefix := Prefix o;
     DisableAutoBrackets := DisableAutoBrackets o; Out := Out o;
     OutputFlags := OutputFlags o |}.

(** Recovery is a HTTP middleware that catches any panics and serves a proper
    error response. [panicHandler] is [None] for a nil [http.Handler]. *)
Record Recovery : Type := mkRecovery {
  Logger : log.Logger Writer;
  opt : Options;
  panicHandler : option http.Handler
}.

(** [r.panicHandler = h]. *)
Definition set_panicHandler (r : Recovery) (h : option http.Handler) : Recovery :=
  {| Logger := Logger r; opt := opt r; panicHandler := h |}.

(** ** The state Go code runs in *)

(** What the runtime reports when asked: the wall clock ([time.Now]), the
    source position of the logging call ([runtime.Caller], [None] when it
    reports failure), and the text [runtime.Stack] has to offer for the
    current goroutine ([false]) or for all goroutines ([true]). *)
Record Runtime : Type := mkRuntime {
  Now : time.Time;
  Caller : option (string * Z);
  StackText : bool -> bytes
}.

(** [recoveries] holds the [Recovery] structs by address, [recorders] the
    response writers by address (an address never written to denotes a fresh
    recorder), [stderr] and [buffers] what each sink received, one entry per
    call of [Write]. *)
Record Heap : Type := mkHeap {
  recoveries : gmap nat Recovery;
  recorders : gmap nat httptest.ResponseRecorder;
  stderr : list string;
  buffers : gmap nat (list string);
  env : Runtime
}.

(** The calls a piece of Go code makes that the properties below speak
    about. *)
Inductive Event : Type :=
  | EvServeHTTP (h : http.Handler) (w : nat) (req : http.Request)
  | EvStack (size : nat) (all : bool)
  | EvWrite (out : Writer) (p : string).

Inductive Outcome (A : Type) : Type :=
  | Returned (a : A)
  | Panicked (v : any).
Arguments Returned {A} a.
Arguments Panicked {A} v.

Definition M (A : Type) : Type := Heap -> Outcome A * Heap * list Event.

#[export] Instance M_ret : MRet M := fun A a σ => (Returned a, σ, []).

#[export] Instance M_bind : MBind M := fun A B f m σ =>
  match m σ with
  | (Returned a, σ1, t1) => let '(o, σ2, t2) := f a σ1 in (o, σ2, t1 ++ t2)
  | (Panicked v, σ1, t1) => (Panicked v, σ1, t1)
  end.

Definition panic {A : Type} (v : any) : M A := fun σ => (Panicked v, σ, []).

Definition gets {A : Type} (f : Heap -> A) : M A := fun σ => (Returned (f σ), σ, []).

Definition modify (f : Heap -> Heap) : M unit := fun σ => (Returned tt, f σ, []).

Definition emit (e : Event) : M unit := fun σ => (Returned tt, σ, [e]).

(** [defer func() { err := recover(); d err }(); body]: the deferred function
    runs when [body] returns and when it panics; [recover()] gives nil in the
    first case and the value of the panic in the second, and stops the panic,
    so that the function returns normally unless [d] panics itself. A panic
    whose value is nil is stopped like any other and recovered as nil: the
    semantics of Go up to 1.20, and of later versions under
    [GODEBUG=panicnil=1]. *)
Definition defer_recover (body : M unit) (d : any -> M unit) : M unit := fun σ =>
  let '(o, σ1, t1) := body σ in
  let err := match o with Returned _ => Nil | Panicked v => v end in
  let '(o2, σ2, t2) := d err σ1 in
  (o2, σ2, t1 ++ t2).

(** The runtime error of a nil pointer or nil interface dereference. *)
Definition nil_dereference : any :=
  Err "runtime error: invalid memory address or nil pointer dereference".

(** A request-handling function: [func(w http.ResponseWriter, req *http.Request)]. *)
Definition HandlerFn : Type := nat -> http.Request -> M unit.

(** ** Heap access *)

Definition with_recoveries (σ : Heap) (m : gmap nat Recovery) : Heap :=
  {| recoveries := m; recorders := recorders σ; stderr := stderr σ;
     buffers := buffers σ; env := env σ |}.

Definition with_recorders (σ : Heap) (m : gmap nat httptest.ResponseRecorder) : Heap :=
  {| recoveries := recoveries σ; recorders := m; stderr := stderr σ;
     buffers := buffers σ; env := env σ |}.

(** The recorder behind a response writer. *)
Definition recorder_at (σ : Heap) (w : nat) : httptest.ResponseRecorder :=
  default httptest.NewRecorder (recorders σ !! w).

(** The heap in which the response writer [w] is the recorder [rec]. *)
Definition store_recorder (σ : Heap) (w : nat) (rec : httptest.ResponseRecorder) : Heap :=
  with_recorders σ (<[w := rec]> (recorders σ)).

(** What a sink has received so far, one entry per [Write]. *)
Definition written (σ : Heap) (out : Writer) : list string :=
  match out with
  | Stderr => stderr σ
  | Discard => []
  | Buffer id => default [] (buffers σ !! id)
  end.

(** The effect of [out.Write(p)] on the heap. *)
Definition sink_append (out : Writer) (p : string) (σ : Heap) : Heap :=
  match out with
  | Stderr =>
      {| recoveries := recoveries σ; recorders := recorders σ;
         stderr := stderr σ ++ [p]; buffers := buffers σ; env := env σ |}
  | Discard => σ
  | Buffer id =>
      {| recoveries := recoveries σ; recorders := recorders σ; stderr := stderr σ;
         buffers := <[id := default [] (buffers σ !! id) ++ [p]]> (buffers σ);
         env := env σ |}
  end.

(** [out.Write(p)]; none of the three sinks reports an error. *)
Definition Writer_Write (out : Writer) (p : string) : M unit :=
  emit (EvWrite out p);; modify (sink_append out p).

(** Reading through a [*Recovery]: a panic when nothing lives at the address. *)
Definition deref (r : nat) : M Recovery := fun σ =>
  match recoveries σ !! r with
  | Some rv => (Returned rv, σ, [])
  | None => (Panicked nil_dereference, σ, [])
  end.

(** [&Recovery{...}]: the struct is placed at an address not in use. *)
Definition alloc (rv : Recovery) : M nat := fun σ =>
  let r := fresh (dom (recoveries σ)) in
  (Returned r, with_recoveries σ (<[r := rv]> (recoveries σ)), []).

(** ** Package [runtime] *)

(** [runtime.Stack(buf, all)]: the stack text is copied into [buf] as far as
    it fits; the result is the number of bytes written and the buffer. *)
Definition runtime_Stack (buf : bytes) (all : bool) : M (nat * bytes) := fun σ =>
  let text := StackText (env σ) all in
  let n := Nat.min (length buf) (length text) in
  (Returned (n, take n text ++ drop n buf), σ, [EvStack (length buf) all]).

(** The stack snapshot of the recovery path:
    [stack := make([]byte, r.opt.StackSize)] followed by
    [stack = stack[:runtime.Stack(stack, r.opt.IncludeFullStack)]].
    Allocation is taken to succeed whatever the size. *)
Definition capture_stack (rv : Recovery) : M bytes :=
  let stack := make_bytes (StackSize (opt rv)) in
  '(n, stack) ← runtime_Stack stack (IncludeFullStack (opt rv));
  mret (take n stack).

(** ** [log.Logger]: [Printf] *)

(** [l.Printf("Recovering from Panic: %s\n%s", err, stack)]: one call of
    [Output], hence one call of [Write] on the logger's sink, whose error
    result is dropped. *)
Definition Logger_Printf_recovering (l : log.Logger Writer) (err : any)
    (stack : bytes) : M unit :=
  now ← gets (fun σ => Now (env σ));
  caller ← gets (fun σ => Caller (env σ));
  Writer_Write (log.out l)
    (log.outputLine l now caller (fmt.Sprintf_recovering err stack)).

Section Program.

(** Content sniffing ([http.DetectContentType]) is left to the library. *)
Variable DetectContentType : string -> string.

(** The handlers of the program the middleware is part of. *)
Variable handlers : nat -> HandlerFn.

(** *** [httptest.ResponseRecorder] as [http.ResponseWriter] *)

Definition put_recorder (w : nat) (rec : httptest.ResponseRecorder) : M unit :=
  modify (fun σ => store_recorder σ w rec).

(** [w.Header().Set(key, value)], for a key in canonical form. *)
Definition Header_Set (w : nat) (key value : string) : M unit :=
  rec ← gets (fun σ => recorder_at σ w);
  put_recorder w
    {| httptest.Code := httptest.Code rec;
       httptest.HeaderMap := <[key := [value]]> (httptest.HeaderMap rec);
       httptest.Body := httptest.Body rec;
       httptest.wroteHeader := httptest.wroteHeader rec |}.

(** [w.WriteHeader(code)]: only the first call counts; a code outside
    100..999 is refused with a panic. *)
Definition WriteHeader (w : nat) (code : Z) : M unit :=
  rec ← gets (fun σ => recorder_at σ w);
  if httptest.wroteHeader rec then mret tt
  else if (code <? 100) || (999 <? code) then
    panic (Str ("invalid WriteHeader code " +:+ fmt.verb_v_int code))
  else
    put_recorder w
      {| httptest.Code := code;
         httptest.HeaderMap := httptest.HeaderMap rec;
         httptest.Body := httptest.Body rec;
         httptest.wroteHeader := true |}.

(** [w.Write(buf)]: a first write sends the header with status 200, after
    choosing a content type when none is set. *)
Definition Write (w : nat) (buf : string) : M unit :=
  rec ← gets (fun σ => recorder_at σ w);
  (if httptest.wroteHeader rec then mret tt
   else
     (if bool_decide (httptest.HeaderMap rec !! "Content-Type"%string = None)
         && bool_decide (http.Header_Get (httptest.HeaderMap rec) "Transfer-Encoding"
                         = EmptyString)
      then Header_Set w "Content-Type" (DetectContentType buf)
      else mret tt);;
     WriteHeader w 200);;
  rec ← gets (fun σ => recorder_at σ w);
  put_recorder w
    {| httptest.Code := httptest.Code rec;
       httptest.HeaderMap := httptest.HeaderMap rec;
       httptest.Body := httptest.Body rec +:+ buf;
       httptest.wroteHeader := httptest.wroteHeader rec |}.

(** [http.Error(w, error, code)]: two headers are set, the status is sent
    and the text is written with [fmt.Fprintln], which ends it with a
    newline. *)
Definition http_Error (w : nat) (error : string) (code : Z) : M unit :=
  Header_Set w "Content-Type" "text/plain; charset=utf-8";;
  Header_Set w "X-Content-Type-Options" "nosniff";;
  WriteHeader w code;;
  Write w (error +:+ newline).

(** *** Package [recovery]: functions *)

Definition defaultPanicHandler : HandlerFn := fun w r =>
  http_Error w (http.StatusText http.StatusInternalServerError)
    http.StatusInternalServerError.

(** The method [ServeHTTP] of a handler value. *)
Definition handler_body (h : http.Handler) : HandlerFn :=
  match h with
  | http.HandlerFunc_defaultPanicHandler => defaultPanicHandler
  | http.UserHandler id => handlers id
  end.

(** [h.ServeHTTP(w, req)] on an interface value [h]; calling through a nil
    interface is a runtime error. *)
Definition ServeHTTP (h : option http.Handler) (w : nat) (req : http.Request) : M unit :=
  match h with
  | None => panic nil_dereference
  | Some h => emit (EvServeHTTP h w req);; handler_body h w req
  end.

(** New returns a new Recovery instance. *)
Definition New (opts : list Options) : M nat :=
  let o := match opts with [] => Options_zero | o :: _ => o end in
  (* Stacksize *)
  let o := if StackSize o <=? 0 then set_StackSize o (8 * 1024) else o in
  (* Determine prefix. *)
  let prefix := Prefix o in
  let prefix :=
    if (0 <? String.length prefix)%nat && bool_decide (DisableAutoBrackets o = false)
    then "[" +:+ prefix +:+ "] " else prefix in
  (* Determine output writer. *)
  let output := match Out o with Some out => out | None => Stderr end in
  (* Determine output flags. *)
  let flags := log.LstdFlags in
  let flags :=
    if OutputFlags o =? -1 then 0
    else if negb (OutputFlags o =? 0) then OutputFlags o
    else flags in
  alloc {| Logger := log.New output prefix flags;
           opt := o;
           panicHandler := Some http.HandlerFunc_defaultPanicHandler |}.

(** Handler wraps an HTTP handler and recovers any panics from up stream. *)
Definition Handler (r : nat) (next : HandlerFn) : HandlerFn := fun w req =>
  defer_recover (next w req) (fun err =>
    if negb (is_nil err) then
      rv ← deref r;
      ServeHTTP (panicHandler rv) w req;;
      rv ← deref r;
      stack ← capture_stack rv;
      Logger_Printf_recovering (Logger rv) err stack
    else mret tt).

(** SetPanicHandler sets the handler to call when Recovery encounters a
    panic. *)
Definition SetPanicHandler (r : nat) (handler : option http.Handler) : M unit :=
  rv ← deref r;
  modify (fun σ =>
    with_recoveries σ (<[r := set_panicHandler rv handler]> (recoveries σ))).

End Program.

(** ** Derived descriptions used in the statements below *)

(** The recorder [http.Error(w, error, code)] leaves behind. *)
Definition error_response (rec : httptest.ResponseRecorder) (error : string)
    (code : Z) : httptest.ResponseRecorder :=
  {| httptest.Code := if httptest.wroteHeader rec then httptest.Code rec else code;
     httptest.HeaderMap :=
       <["X-Content-Type-Options"%string := ["nosniff"%string]]>
         (<["Content-Type"%string := ["text/plain; charset=utf-8"%string]]>
            (httptest.HeaderMap rec));
     httptest.Body := httptest.Body rec +:+ (error +:+ newline);
     httptest.wroteHeader := true |}.

(** The line the recovery path logs for the panic value [v], from the
    instance [rv] in the heap [σ]. *)
Definition recovery_line (rv : Recovery) (v : any) (σ : Heap) : string :=
  log.outputLine (Logger rv) (Now (env σ)) (Caller (env σ))
    (fmt.Sprintf_recovering v
       (take (Z.to_nat (StackSize (opt rv)))
          (StackText (env σ) (IncludeFullStack (opt rv))))).

(** The metadata of the header of a line logged through [l] at time [t]. *)
Definition line_meta (l : log.Logger Writer) (t : time.Time)
    (caller : option (string * Z)) : string :=
  let '(file, line) := log.caller_position (log.flag l) caller in
  log.formatMeta (log.flag l) t file line EmptyString.

(** The options [New] works from: the first of those supplied, or the zero
    value. *)
Definition supplied (opts : list Options) : Options :=
  default Options_zero (head opts).

(** The instance a call of [New] returned, if it returned. *)
Definition instance_of (res : Outcome nat * Heap * list Event) : option Recovery :=
  match res with
  | (Returned r, σ, _) => recoveries σ !! r
  | (Panicked _, _, _) => None
  end.

(** [SetPanicHandler] called with each of [hs] in turn. *)
Fixpoint SetPanicHandler_each (r : nat) (hs : list (option http.Handler)) : M unit :=
  match hs with
  | [] => mret tt
  | h :: hs => SetPanicHandler r h;; SetPanicHandler_each r hs
  end.

(** ** A program using the middleware

    The handlers of the package's tests, and one fallback handler that panics
    itself. *)

Module Example.

Definition sniff (_ : string) : string := "text/plain; charset=utf-8".

Definition myHandler : HandlerFn := fun w _ => Write sniff w "bar".

Definition myPanicHandler : HandlerFn := fun _ _ => panic (Str "this did not work").

Definition nilPanicHandler : HandlerFn := fun _ _ => panic Nil.


Definition customHandler : HandlerFn := fun w _ =>
  WriteHeader w http.StatusBadRequest;; Write sniff w "You got 400 yo!".

Definition brokenHandler : HandlerFn := fun _ _ => panic (Str "fallback failed").

Definition handlers (id : nat) : HandlerFn :=
  match id with
  | O => customHandler
  | S O => brokenHandler
  | _ => myHandler
  end.

Definition runtime : Runtime :=
  {| Now := time.mkTime (time.mkCivil 2014 12 5 23 15 11 0)
              (time.mkCivil 2014 12 6 7 15 11 0);
     Caller := Some ("/go/src/github.com/unrolled/recovery/recovery.go"%string, 88);
     StackText := fun all =>
       String.list_byte_of_string
         (if all then "goroutine 5 [running]: main.f() goroutine 1 [sleep]: main.g()"
          else "goroutine 5 [running]: main.f()") |}.

Definition empty : Heap :=
  {| recoveries := ∅; recorders := ∅; stderr := []; buffers := ∅; env := runtime |}.

Definition req : http.Request := http.mkRequest "GET" "/foo".

(** The response writer of the request in flight. *)
Definition res : nat := 7%nat.

Definition heap_of {A : Type} (x : Outcome A * Heap * list Event) : Heap := x.1.2.

(** After [r := New(Options{Out: buf})], [buf] being [Buffer 1]. *)
Definition started : Heap :=
  heap_of (New [ {| IncludeFullStack := false; StackSize := 0; Prefix := "app";
                    DisableAutoBrackets := false; Out := Some (Buffer 1);
                    OutputFlags := 0 |} ] empty).

(** The instance [New] built there. *)
Definition instance : Recovery :=
  {| Logger := log.mkLogger (Buffer 1) "[app] " 3;
     opt := {| IncludeFullStack := false; StackSize := 8192; Prefix := "app";
               DisableAutoBrackets := false; Out := Some (Buffer 1);
               OutputFlags := 0 |};
     panicHandler := Some http.HandlerFunc_defaultPanicHandler |}.


(** After [r.SetPanicHandler(customHandler)]. *)
Definition customised : Heap :=
  heap_of (SetPanicHandler 0%nat (Some (http.UserHandler 0)) started).

(** [Options{Out: buf}] with further fields set as the tests set them. *)
Definition options (size : Z) (full : bool) (prefix : string) (nobrackets : bool)
    (flags : Z) : Options :=
  {| IncludeFullStack := full; StackSize := size; Prefix := prefix;
     DisableAutoBrackets := nobrackets; Out := Some (Buffer 1); OutputFlags := flags |}.

(** [r := New(opts...); r.Handler(next).ServeHTTP(res, req)] from the empty
    heap. *)
Definition serve (opts : list Options) (next : HandlerFn) : Outcome unit * Heap * list Event :=
  (r ← New opts; Handler sniff handlers r next res req) empty.

(** The same with [r.SetPanicHandler(h)] in between. *)
Definition serve_with (opts : list Options) (h : http.Handler) (next : HandlerFn) :
    Outcome unit * Heap * list Event :=
  (r ← New opts; SetPanicHandler r (Some h);; Handler sniff handlers r next res req) empty.

(** Status code and body of the recorded response, and what the buffer
    holds. *)
Definition response (x : Outcome unit * Heap * list Event) : Z * string :=
  (httptest.Code (recorder_at (heap_of x) res), httptest.Body (recorder_at (heap_of x) res)).

Definition logged (x : Outcome unit * Heap * list Event) : list string :=
  written (heap_of x) (Buffer 1).

End Example.

(** ** Further options and handlers *)

(** The options the README lists as the defaults:
    no full stack, a stack size of [8 * 1024], an empty prefix, automatic
    brackets, [os.Stderr] as sink and [log.LstdFlags] as flags. *)
Definition Options_documented : Options :=
  {| IncludeFullStack := false; StackSize := 8 * 1024; Prefix := EmptyString;
     DisableAutoBrackets := false; Out := Some Stderr; OutputFlags := log.LstdFlags |}.

(** The custom panic handler of [TestCustomPanicHandler]:
    [w.WriteHeader(http.StatusBadRequest)] and then
    [w.Write([]byte("You got 400 yo!"))]. *)
Definition customHandler (DetectContentType : string -> string) : HandlerFn := fun w _ =>
  WriteHeader w http.StatusBadRequest;; Write DetectContentType w "You got 400 yo!".

(** A downstream handler that calls [r.SetPanicHandler(h)] and then panics
    with [v]. *)
Definition swap_then_panic (r : nat) (h : option http.Handler) (v : any) : HandlerFn :=
  fun _ _ => SetPanicHandler r h;; panic v.

(** [r.Handler(r.Handler(... next))], with [n] layers. *)
Fixpoint wrap (DetectContentType : string -> string) (handlers : nat -> HandlerFn)
    (r : nat) (n : nat) (next : HandlerFn) : HandlerFn :=
  match n with
  | O => next
  | S n => Handler DetectContentType handlers r (wrap DetectContentType handlers r n next)
  end.


(** Unfolding the operations of [M]. *)
Ltac unfold_M :=
  unfold mbind, M_bind, mret, M_ret, gets, modify, emit, panic, deref in *.

(** * Properties *)

(** ** Strings *)

Lemma append_nil_l (s : string) : EmptyString +:+ s = s.
Proof. reflexivity. Qed.

Lemma append_cons (c : ascii) (s t : string) : String c s +:+ t = String c (s +:+ t).
Proof. reflexivity. Qed.

Lemma append_nil_r (s : string) : s +:+ EmptyString = s.
Proof. induction s as [|c s IH]; [done | by rewrite append_cons, IH]. Qed.

Lemma append_assoc (a b c : string) : (a +:+ b) +:+ c = a +:+ (b +:+ c).
Proof. induction a as [|x a IH]; [done | by rewrite !append_cons, IH]. Qed.

(** ** The header of a log line *)

Lemma has_zero (mask : Z) : log.has 0 mask = false.
Proof. unfold log.has. by rewrite Z.land_0_l. Qed.

Lemma itoa_append (buf : string) (i wid : Z) :
  log.itoa buf i wid = buf +:+ log.itoa EmptyString i wid.
Proof. reflexivity. Qed.

(** The metadata is appended to the buffer; it does not look at what the
    buffer holds, in particular not at the prefix. *)
Lemma formatMeta_append (flag : Z) (t : time.Time) (file : string) (line : Z)
    (buf : string) :
  log.formatMeta flag t file line buf
  = buf +:+ log.formatMeta flag t file line EmptyString.
Proof.
  unfold log.formatMeta.
  repeat match goal with
         | |- context [if ?b then _ else _] => destruct b
         end;
    cbn zeta;
    repeat (rewrite (itoa_append (_ +:+ _)) || rewrite (itoa_append (log.itoa _ _ _)));
    rewrite ?(itoa_append buf), ?append_nil_l, ?append_assoc, ?append_nil_r;
    reflexivity.
Qed.

Lemma formatMeta_no_flags (t : time.Time) (file : string) (line : Z) (buf : string) :
  log.formatMeta 0 t file line buf = buf.
Proof. unfold log.formatMeta. by rewrite !has_zero. Qed.

(** The prefix enters the header once and as it is stored: in front of the
    metadata, or behind it under [Lmsgprefix]. *)
Lemma formatHeader_prefix (l : log.Logger Writer) (t : time.Time) (file : string)
    (line : Z) :
  log.formatHeader l t file line
  = if log.has (log.flag l) log.Lmsgprefix
    then log.formatMeta (log.flag l) t file line EmptyString +:+ log.prefix l
    else log.prefix l +:+ log.formatMeta (log.flag l) t file line EmptyString.
Proof.
  unfold log.formatHeader. destruct (log.has _ log.Lmsgprefix); simpl.
  - reflexivity.
  - apply formatMeta_append.
Qed.

(** ** The stack snapshot *)

Lemma make_bytes_length (n : Z) : length (make_bytes n) = Z.to_nat n.
Proof. unfold make_bytes. apply length_replicate. Qed.

Lemma capture_stack_eq (rv : Recovery) (σ : Heap) :
  capture_stack rv σ
  = (Returned (take (Z.to_nat (StackSize (opt rv)))
                 (StackText (env σ) (IncludeFullStack (opt rv)))),
     σ,
     [EvStack (Z.to_nat (StackSize (opt rv))) (IncludeFullStack (opt rv))]).
Proof.
  unfold capture_stack, runtime_Stack, mbind, M_bind, mret, M_ret. simpl.
  rewrite make_bytes_length.
  set (text := StackText _ _). set (size := Z.to_nat _).
  f_equal. f_equal. f_equal.
  rewrite take_app_length'.
  - destruct (decide (size ≤ length text)%nat) as [Hle|Hgt].
    + by rewrite Nat.min_l.
    + rewrite Nat.min_r by lia. rewrite !take_ge; [done | lia | lia].
  - rewrite length_take. lia.
Qed.

(** ** Running Go code *)

Lemma recorder_at_store (σ : Heap) (w : nat) (rec : httptest.ResponseRecorder) :
  recorder_at (store_recorder σ w rec) w = rec.
Proof. unfold recorder_at, store_recorder. simpl. by rewrite lookup_insert_eq. Qed.

Lemma store_recorder_twice (σ : Heap) (w : nat) (rec1 rec2 : httptest.ResponseRecorder) :
  store_recorder (store_recorder σ w rec1) w rec2 = store_recorder σ w rec2.
Proof. unfold store_recorder, with_recorders. simpl. by rewrite insert_insert_eq. Qed.




Lemma Logger_Printf_recovering_eq (l : log.Logger Writer) (err : any)
    (stack : bytes) (σ : Heap) :
  let line := log.outputLine l (Now (env σ)) (Caller (env σ))
                (fmt.Sprintf_recovering err stack) in
  Logger_Printf_recovering l err stack σ
  = (Returned tt, sink_append (log.out l) line σ, [EvWrite (log.out l) line]).
Proof. reflexivity. Qed.


(** The shape of a logged line: stored prefix and metadata, then the
    message, then the closing newline the logger adds when it is missing. *)
Lemma outputLine_shape (l : log.Logger Writer) (t : time.Time)
    (caller : option (string * Z)) (s : string) :
  log.outputLine l t caller s
  = (if log.has (log.flag l) log.Lmsgprefix
     then line_meta l t caller +:+ log.prefix l
     else log.prefix l +:+ line_meta l t caller)
    +:+ s +:+ (if last_is (ascii_of_N 10) s then EmptyString else newline).
Proof.
  unfold log.outputLine, line_meta.
  destruct (log.caller_position _ _) as [file line].
  rewrite formatHeader_prefix.
  destruct (last_is _ s); [by rewrite append_nil_r | by rewrite append_assoc].
Qed.

(** ** [New] *)

Lemma New_eq (opts : list Options) (σ : Heap) :
  exists (r : nat) (rv : Recovery),
    New opts σ = (Returned r, with_recoveries σ (<[r := rv]> (recoveries σ)), [])
    /\ recoveries σ !! r = None
    /\ instance_of (New opts σ) = Some rv
    /\ log.out (Logger rv) = default Stderr (Out (supplied opts))
    /\ log.prefix (Logger rv)
       = (if decide (Prefix (supplied opts) ≠ EmptyString
                     /\ DisableAutoBrackets (supplied opts) = false)
          then "[" +:+ Prefix (supplied opts) +:+ "] "
          else Prefix (supplied opts))
    /\ log.flag (Logger rv)
       = (if decide (OutputFlags (supplied opts) = -1) then 0
          else if decide (OutputFlags (supplied opts) = 0) then log.LstdFlags
          else OutputFlags (supplied opts))
    /\ opt rv
       = (if decide (0 < StackSize (supplied opts)) then supplied opts
          else set_StackSize (supplied opts) 8192)
    /\ panicHandler rv = Some http.HandlerFunc_defaultPanicHandler.
Proof.
  assert (Hsup : match opts with [] => Options_zero | o :: _ => o end = supplied opts)
    by (by destruct opts).
  unfold New, alloc. rewrite Hsup. set (o := supplied opts).
  eexists _, _. split; [reflexivity |].
  split.
  { apply not_elem_of_dom. apply is_fresh. }
  split.
  { simpl. by rewrite lookup_insert_eq. }
  split.
  { simpl. destruct (StackSize o <=? 0); simpl; by destruct (Out o). }
  split.
  { simpl. assert (HP : Prefix (if StackSize o <=? 0 then set_StackSize o (8 * 1024) else o)
                        = Prefix o) by (by destruct (StackSize o <=? 0)).
    assert (HD : DisableAutoBrackets (if StackSize o <=? 0 then set_StackSize o (8 * 1024) else o)
                 = DisableAutoBrackets o) by (by destruct (StackSize o <=? 0)).
    rewrite HP, HD.
    destruct (Prefix o) as [|c p] eqn:Hp;
      destruct (DisableAutoBrackets o) eqn:Hdis; simpl; try reflexivity;
      case_decide as Hd; try done; try (by destruct Hd);
      exfalso; apply Hd; done. }
  split.
  { simpl. assert (HF : OutputFlags (if StackSize o <=? 0 then set_StackSize o (8 * 1024) else o)
                        = OutputFlags o) by (by destruct (StackSize o <=? 0)).
    rewrite HF.
    destruct (decide (OutputFlags o = -1)) as [->|Hm]; [done |].
    destruct (decide (OutputFlags o = 0)) as [->|Hz]; [done |].
    replace (OutputFlags o =? -1) with false by lia.
    by replace (OutputFlags o =? 0) with false by lia. }
  split.
  { simpl. destruct (decide (0 < StackSize o)) as [Hpos|Hnp].
    - by replace (StackSize o <=? 0) with false by lia.
    - by replace (StackSize o <=? 0) with true by lia. }
  reflexivity.
Qed.

(** ** The wrapper *)

Section Middleware.

Variable D : string -> string.
Variable H : nat -> HandlerFn.

Lemma http_Error_eq (w : nat) (error : string) (code : Z) (σ : Heap) :
  100 <= code <= 999 ->
  http_Error D w error code σ
  = (Returned tt, store_recorder σ w (error_response (recorder_at σ w) error code), []).
Proof.
  intros Hcode.
  unfold http_Error, Write, WriteHeader, Header_Set, put_recorder. unfold_M.
  replace (code <? 100) with false by lia.
  replace (999 <? code) with false by lia.
  unfold error_response.
  destruct (httptest.wroteHeader (recorder_at σ w)) eqn:Hw;
    repeat (progress (cbn beta iota zeta;
                      cbn [httptest.wroteHeader httptest.Code httptest.Body
                           httptest.HeaderMap orb];
                      rewrite ?recorder_at_store, ?store_recorder_twice, ?Hw));
    reflexivity.
Qed.

(** The default panic handler never panics on a recorder. *)
Lemma defaultPanicHandler_eq (w : nat) (req : http.Request) (σ : Heap) :
  defaultPanicHandler D w req σ
  = (Returned tt,
     store_recorder σ w (error_response (recorder_at σ w) "Internal Server Error" 500),
     []).
Proof. unfold defaultPanicHandler. by rewrite http_Error_eq. Qed.

Lemma ServeHTTP_eq (h : http.Handler) (w : nat) (req : http.Request) (σ : Heap) :
  ServeHTTP D H (Some h) w req σ
  = let '(o, σ', t) := handler_body D H h w req σ in
    (o, σ', EvServeHTTP h w req :: t).
Proof.
  unfold ServeHTTP. unfold_M.
  by destruct (handler_body D H h w req σ) as [[o σ'] t].
Qed.

(** What the deferred function does with a non-nil recovered value [v],
    from the heap [σ1] that [next] left. *)
Lemma Handler_panicked (r : nat) (next : HandlerFn) (w : nat) (req : http.Request)
    (σ σ1 : Heap) (t1 : list Event) (v : any) :
  next w req σ = (Panicked v, σ1, t1) ->
  v ≠ Nil ->
  Handler D H r next w req σ
  = match recoveries σ1 !! r with
    | None => (Panicked nil_dereference, σ1, t1)
    | Some rv1 =>
        match ServeHTTP D H (panicHandler rv1) w req σ1 with
        | (Panicked v', σ2, t2) => (Panicked v', σ2, t1 ++ t2)
        | (Returned _, σ2, t2) =>
            match recoveries σ2 !! r with
            | None => (Panicked nil_dereference, σ2, t1 ++ t2)
            | Some rv2 =>
                (Returned tt,
                 sink_append (log.out (Logger rv2)) (recovery_line rv2 v σ2) σ2,
                 t1 ++ t2
                    ++ [EvStack (Z.to_nat (StackSize (opt rv2)))
                          (IncludeFullStack (opt rv2));
                        EvWrite (log.out (Logger rv2)) (recovery_line rv2 v σ2)])
            end
        end
    end.
Proof.
  intros Hnext Hv.
  unfold Handler, defer_recover. rewrite Hnext.
  replace (negb (is_nil v)) with true by (by destruct v).
  unfold_M.
  destruct (recoveries σ1 !! r) as [rv1|]; [| by rewrite ?app_nil_r].
  destruct (ServeHTTP D H (panicHandler rv1) w req σ1) as [[[u|v'] σ2] t2];
    [| by rewrite ?app_nil_r].
  destruct (recoveries σ2 !! r) as [rv2|]; [| by rewrite ?app_nil_r].
  rewrite capture_stack_eq. reflexivity.
Qed.

Lemma Handler_nil_panic (r : nat) (next : HandlerFn) (w : nat) (req : http.Request)
    (σ σ1 : Heap) (t1 : list Event) :
  next w req σ = (Panicked Nil, σ1, t1) ->
  Handler D H r next w req σ = (Returned tt, σ1, t1).
Proof.
  intros Hnext. unfold Handler, defer_recover. rewrite Hnext. simpl.
  unfold_M. by rewrite app_nil_r.
Qed.

Lemma SetPanicHandler_eq (r : nat) (h : option http.Handler) (σ : Heap) (rv : Recovery) :
  recoveries σ !! r = Some rv ->
  SetPanicHandler r h σ
  = (Returned tt, with_recoveries σ (<[r := set_panicHandler rv h]> (recoveries σ)), []).
Proof. intros Hr. unfold SetPanicHandler. unfold_M. by rewrite Hr. Qed.

Lemma SetPanicHandler_each_eq (r : nat) (hs : list (option http.Handler))
    (h : option http.Handler) (σ : Heap) (rv : Recovery) :
  recoveries σ !! r = Some rv ->
  SetPanicHandler_each r (hs ++ [h]) σ
  = (Returned tt, with_recoveries σ (<[r := set_panicHandler rv h]> (recoveries σ)), []).
Proof.
  revert σ rv. induction hs as [|h0 hs IH]; intros σ rv Hr; simpl.
  - unfold mbind, M_bind. by rewrite (SetPanicHandler_eq _ _ _ _ Hr).
  - unfold mbind, M_bind. rewrite (SetPanicHandler_eq _ _ _ _ Hr).
    rewrite (IH _ (set_panicHandler rv h0)); [| simpl; by rewrite lookup_insert_eq].
    simpl. unfold with_recoveries. simpl. by rewrite insert_insert_eq.
Qed.

(** With the default panic handler on a live instance, no panic of [next]
    leaves the wrapper. *)
Lemma Handler_default_returns (r : nat) (next : HandlerFn) (w : nat)
    (req : http.Request) (σ σ1 : Heap) (t1 : list Event) (v : any) (rv1 : Recovery) :
  next w req σ = (Panicked v, σ1, t1) ->
  recoveries σ1 !! r = Some rv1 ->
  panicHandler rv1 = Some http.HandlerFunc_defaultPanicHandler ->
  exists (σ3 : Heap) (t3 : list Event),
    Handler D H r next w req σ = (Returned tt, σ3, t3).
Proof.
  intros Hnext Hr1 Hh.
  destruct (is_nil v) eqn:Hnil.
  - destruct v; try done. eexists _, _. by apply Handler_nil_panic.
  - assert (Hv : v ≠ Nil) by (by intros ->).
    rewrite (Handler_panicked _ _ _ _ _ _ _ _ Hnext Hv), Hr1, Hh, ServeHTTP_eq.
    cbn [handler_body]. rewrite defaultPanicHandler_eq.
    change (recoveries (store_recorder σ1 w _)) with (recoveries σ1).
    rewrite Hr1. by eexists _, _.
Qed.

(** *** Claims *)

(** C4 (pass-through). If [next] completes without panicking, the wrapped
    handler does exactly what [next] does: same outcome, same heap (the
    response with its status code and body, every sink) and same trace, so
    nothing is written to the output sink by the wrapper. *)
Theorem C4_pass_through (r : nat) (next : HandlerFn) (w : nat) (req : http.Request)
    (σ σ1 : Heap) (t1 : list Event) :
  next w req σ = (Returned tt, σ1, t1) ->
  Handler D H r next w req σ = (Returned tt, σ1, t1)
  /\ recorder_at (Handler D H r next w req σ).1.2 w = recorder_at σ1 w
  /\ forall out : Writer, written (Handler D H r next w req σ).1.2 out = written σ1 out.
Proof.
  intros Hnext.
  assert (Heq : Handler D H r next w req σ = (Returned tt, σ1, t1)).
  { unfold Handler, defer_recover. rewrite Hnext. simpl.
    unfold_M. by rewrite app_nil_r. }
  by rewrite Heq.
Qed.

(** C10 (nil panic value). If [next] panics with a nil value, the wrapped
    handler still returns normally, and it does nothing else: the heap is the
    one [next] left (the client has what [next] wrote before panicking) and
    the trace is that of [next], with no call of the panic handler, no stack
    capture and no write to the log. *)
Theorem C10_nil_panic_swallowed (r : nat) (next : HandlerFn) (w : nat)
    (req : http.Request) (σ σ1 : Heap) (t1 : list Event) :
  next w req σ = (Panicked Nil, σ1, t1) ->
  Handler D H r next w req σ = (Returned tt, σ1, t1).
Proof.
  intros Hnext. unfold Handler, defer_recover. rewrite Hnext.
  (* recover() yields nil, the branch [err != nil] is not taken *)
  cbn [is_nil negb]. unfold_M. by rewrite app_nil_r.
Qed.



(** C3 (fallback first, exactly once). On a recovered fault (the recovered
    value is non-nil, the test the deferred function makes) with the panic
    handler [h] configured at that moment, the wrapper calls [h] exactly once,
    with the request and the response writer it was given: the call follows
    the trace of [next] directly and [h] runs on the heap [next] left, where
    no log line has been written. Whatever else the wrapper does comes after
    it: nothing at all, or the stack capture and then the write of the log
    line, both on the heap [h] left. *)
Theorem C3_fallback_once_before_logging (r : nat) (next : HandlerFn) (w : nat)
    (req : http.Request) (σ σ1 : Heap) (t1 : list Event) (v : any)
    (rv1 : Recovery) (h : http.Handler) :
  next w req σ = (Panicked v, σ1, t1) ->
  v ≠ Nil ->
  recoveries σ1 !! r = Some rv1 ->
  panicHandler rv1 = Some h ->
  exists (o : Outcome unit) (σ2 : Heap) (t2 : list Event)
         (o' : Outcome unit) (σ3 : Heap) (rest : list Event),
    handler_body D H h w req σ1 = (o, σ2, t2)
    /\ Handler D H r next w req σ = (o', σ3, t1 ++ EvServeHTTP h w req :: t2 ++ rest)
    /\ (rest = [] /\ σ3 = σ2 /\ (exists v', o' = Panicked v')
        \/ exists rv2 : Recovery,
             o = Returned tt /\ o' = Returned tt
             /\ recoveries σ2 !! r = Some rv2
             /\ rest = [EvStack (Z.to_nat (StackSize (opt rv2)))
                          (IncludeFullStack (opt rv2));
                        EvWrite (log.out (Logger rv2)) (recovery_line rv2 v σ2)]
             /\ σ3 = sink_append (log.out (Logger rv2)) (recovery_line rv2 v σ2) σ2).
Proof.
  intros Hnext Hv Hr1 Hh.
  rewrite (Handler_panicked _ _ _ _ _ _ _ _ Hnext Hv), Hr1, Hh, ServeHTTP_eq.
  destruct (handler_body D H h w req σ1) as [[[[]|v'] σ2] t2] eqn:Hbody.
  - destruct (recoveries σ2 !! r) as [rv2|] eqn:Hr2.
    + eexists _, _, _, _, _, _. split; [reflexivity |]. split.
      * reflexivity.
      * right. by exists rv2.
    + eexists _, _, _, _, _, []. split; [reflexivity |]. split.
      * by rewrite app_nil_r.
      * left. eauto.
  - eexists _, _, _, _, _, []. split; [reflexivity |]. split.
    + by rewrite app_nil_r.
    + left. eauto.
Qed.


(** C9 (replacing the panic handler). After [SetPanicHandler] has been called
    on a live instance any number of times, the last time with [h], the
    instance holds [h]; every wrapper of that instance, whenever it was made,
    then calls [h] on a recovered fault, as long as the instance is as the
    last call left it when the fault is recovered. *)
Theorem C9_last_handler_wins (r : nat) (hs : list (option http.Handler))
    (h : http.Handler) (σ : Heap) (rv : Recovery) :
  recoveries σ !! r = Some rv ->
  exists σ' : Heap,
    SetPanicHandler_each r (hs ++ [Some h]) σ = (Returned tt, σ', [])
    /\ recoveries σ' !! r = Some (set_panicHandler rv (Some h))
    /\ forall (next : HandlerFn) (w : nat) (req : http.Request) (σ1 : Heap)
          (t1 : list Event) (v : any),
        next w req σ' = (Panicked v, σ1, t1) ->
        v ≠ Nil ->
        recoveries σ1 !! r = recoveries σ' !! r ->
        exists (o : Outcome unit) (σ2 : Heap) (t2 : list Event)
               (o' : Outcome unit) (σ3 : Heap) (rest : list Event),
          handler_body D H h w req σ1 = (o, σ2, t2)
          /\ Handler D H r next w req σ'
             = (o', σ3, t1 ++ EvServeHTTP h w req :: t2 ++ rest).
Proof.
  intros Hr. eexists. split; [by apply SetPanicHandler_each_eq |].
  split; [simpl; by rewrite lookup_insert_eq |].
  intros next w req σ1 t1 v Hnext Hv Hsame.
  assert (Hr1 : recoveries σ1 !! r = Some (set_panicHandler rv (Some h))).
  { rewrite Hsame. simpl. by rewrite lookup_insert_eq. }
  rewrite (Handler_panicked _ _ _ _ _ _ _ _ Hnext Hv), Hr1.
  cbn [panicHandler set_panicHandler]. rewrite ServeHTTP_eq.
  destruct (handler_body D H h w req σ1) as [[[[]|v'] σ2] t2].
  - destruct (recoveries σ2 !! r) as [rv2|].
    + eexists _, _, _, _, _, _. split; reflexivity.
    + eexists _, _, _, _, _, []. split; [reflexivity | by rewrite app_nil_r].
  - eexists _, _, _, _, _, []. split; [reflexivity | by rewrite app_nil_r].
Qed.

End Middleware.


(** ** Construction *)

(** C6 (prefix). [New] stores as the logger's prefix the supplied prefix in
    square brackets followed by a space when that prefix is not empty and
    [DisableAutoBrackets] is not set, and the supplied prefix as it is
    otherwise, so that an empty prefix stays empty. Writing a line adds no
    brackets: the stored prefix enters the line once and unchanged, next to
    metadata that depends on the flags only. *)
Theorem C6_prefix_bracketed_at_construction (opts : list Options) (σ : Heap) :
  exists rv : Recovery,
    instance_of (New opts σ) = Some rv
    /\ log.prefix (Logger rv)
       = (if decide (Prefix (supplied opts) ≠ EmptyString
                     /\ DisableAutoBrackets (supplied opts) = false)
          then "[" +:+ Prefix (supplied opts) +:+ "] "
          else Prefix (supplied opts))
    /\ (Prefix (supplied opts) = EmptyString -> log.prefix (Logger rv) = EmptyString)
    /\ forall (t : time.Time) (caller : option (string * Z)) (s : string),
        let meta :=
          log.formatMeta (log.flag (Logger rv)) t
            (log.caller_position (log.flag (Logger rv)) caller).1
            (log.caller_position (log.flag (Logger rv)) caller).2 EmptyString in
        log.outputLine (Logger rv) t caller s
        = (if log.has (log.flag (Logger rv)) log.Lmsgprefix
           then meta +:+ log.prefix (Logger rv)
           else log.prefix (Logger rv) +:+ meta)
          +:+ s +:+ (if last_is (ascii_of_N 10) s then EmptyString else newline).
Proof.
  destruct (New_eq opts σ) as (r & rv & _ & _ & Hinst & _ & Hprefix & _).
  exists rv. split; [exact Hinst |]. split; [exact Hprefix |]. split.
  - intros Hempty. rewrite Hprefix, Hempty.
    case_decide as Hd; [by destruct Hd | done].
  - intros t caller s meta. rewrite outputLine_shape. unfold line_meta.
    subst meta. by destruct (log.caller_position _ caller).
Qed.

(** C7 (flags). [New] gives the logger no flags when [OutputFlags] is -1,
    the standard flags (date and time) when it is 0, and [OutputFlags] itself
    otherwise. Without flags the header carries no metadata; under the
    standard flags it carries the local date and time of day. *)
Theorem C7_flags_resolved (opts : list Options) (σ : Heap) :
  exists rv : Recovery,
    instance_of (New opts σ) = Some rv
    /\ log.flag (Logger rv)
       = (if decide (OutputFlags (supplied opts) = -1) then 0
          else if decide (OutputFlags (supplied opts) = 0)
               then Z.lor log.Ldate log.Ltime
               else OutputFlags (supplied opts))
    /\ (forall (t : time.Time) (file : string) (line : Z) (buf : string),
          log.formatMeta 0 t file line buf = buf)
    /\ (forall (t : time.Time) (file : string) (line : Z),
          log.formatMeta (Z.lor log.Ldate log.Ltime) t file line EmptyString
          = log.itoa EmptyString (time.Year (time.Local t)) 4 +:+ "/"
            +:+ log.itoa EmptyString (time.Month (time.Local t)) 2 +:+ "/"
            +:+ log.itoa EmptyString (time.Day (time.Local t)) 2 +:+ " "
            +:+ log.itoa EmptyString (time.Hour (time.Local t)) 2 +:+ ":"
            +:+ log.itoa EmptyString (time.Minute (time.Local t)) 2 +:+ ":"
            +:+ log.itoa EmptyString (time.Second (time.Local t)) 2 +:+ " ").
Proof.
  destruct (New_eq opts σ) as (r & rv & _ & _ & Hinst & _ & _ & Hflag & _).
  exists rv. split; [exact Hinst |]. split; [exact Hflag |]. split.
  - apply formatMeta_no_flags.
  - intros t file line. rewrite formatMeta_append.
    unfold log.formatMeta.
    change (log.has (Z.lor log.Ldate log.Ltime)
              (Z.lor log.Ldate (Z.lor log.Ltime log.Lmicroseconds))) with true.
    change (log.has (Z.lor log.Ldate log.Ltime) log.LUTC) with false.
    change (log.has (Z.lor log.Ldate log.Ltime) log.Ldate) with true.
    change (log.has (Z.lor log.Ldate log.Ltime)
              (Z.lor log.Ltime log.Lmicroseconds)) with true.
    change (log.has (Z.lor log.Ldate log.Ltime) log.Lmicroseconds) with false.
    change (log.has (Z.lor log.Ldate log.Ltime)
              (Z.lor log.Lshortfile log.Llongfile)) with false.
    cbn beta iota zeta.
    rewrite !(itoa_append (_ +:+ _)), !append_nil_l, !append_assoc.
    reflexivity.
Qed.


(** ** The properties at work on the example program *)

Lemma started_instance : recoveries Example.started !! 0%nat = Some Example.instance.
Proof. vm_compute. reflexivity. Qed.

(** [myHandler] under the wrapper: status 200 and body [bar], as without it. *)
Lemma C4_witness :
  Handler Example.sniff Example.handlers 0 Example.myHandler Example.res Example.req
    Example.started
  = (Returned tt,
     Example.heap_of (Example.myHandler Example.res Example.req Example.started), [])
  /\ httptest.Code (recorder_at
       (Handler Example.sniff Example.handlers 0 Example.myHandler Example.res
          Example.req Example.started).1.2 Example.res) = 200
  /\ httptest.Body (recorder_at
       (Handler Example.sniff Example.handlers 0 Example.myHandler Example.res
          Example.req Example.started).1.2 Example.res) = "bar"%string.
Proof.
  destruct (C4_pass_through Example.sniff Example.handlers 0 Example.myHandler
              Example.res Example.req Example.started
              (Example.heap_of (Example.myHandler Example.res Example.req Example.started))
              []) as (Hrun & Hrec & _).
  - vm_compute. reflexivity.
  - split; [exact Hrun |]. rewrite Hrec. split; vm_compute; reflexivity.
Defined.

(** [panic(nil)] under the wrapper: a normal return and an untouched heap. *)
Lemma C10_witness :
  Handler Example.sniff Example.handlers 0 Example.nilPanicHandler Example.res
    Example.req Example.started
  = (Returned tt, Example.started, []).
Proof.
  apply (C10_nil_panic_swallowed Example.sniff Example.handlers 0
           Example.nilPanicHandler Example.res Example.req Example.started
           Example.started []).
  reflexivity.
Defined.





(** The test [TestCustomPanicHandler]: the custom handler is the first thing
    the wrapper calls. *)
Lemma C3_witness :
  exists (o : Outcome unit) (σ2 : Heap) (t2 : list Event)
         (o' : Outcome unit) (σ3 : Heap) (rest : list Event),
    handler_body Example.sniff Example.handlers (http.UserHandler 0) Example.res
      Example.req Example.customised = (o, σ2, t2)
    /\ Handler Example.sniff Example.handlers 0 Example.myPanicHandler Example.res
         Example.req Example.customised
       = (o', σ3, EvServeHTTP (http.UserHandler 0) Example.res Example.req :: t2 ++ rest).
Proof.
  destruct (C3_fallback_once_before_logging Example.sniff Example.handlers 0
              Example.myPanicHandler Example.res Example.req Example.customised
              Example.customised [] (Str "this did not work")
              (set_panicHandler Example.instance (Some (http.UserHandler 0)))
              (http.UserHandler 0))
    as (o & σ2 & t2 & o' & σ3 & rest & Hbody & Hrun & _).
  - reflexivity.
  - discriminate.
  - vm_compute. reflexivity.
  - reflexivity.
  - exists o, σ2, t2, o', σ3, rest. split; [exact Hbody | exact Hrun].
Defined.



(** Two calls of [SetPanicHandler]: the handler of the second call is the one
    a wrapper calls afterwards. *)
Lemma C9_witness :
  exists σ' : Heap,
    SetPanicHandler_each 0 ([Some (http.UserHandler 1)] ++ [Some (http.UserHandler 0)])
      Example.started
    = (Returned tt, σ', [])
    /\ recoveries σ' !! 0%nat
       = Some (set_panicHandler Example.instance (Some (http.UserHandler 0)))
    /\ exists (o' : Outcome unit) (σ3 : Heap) (t2 rest : list Event),
         Handler Example.sniff Example.handlers 0 Example.myPanicHandler Example.res
           Example.req σ'
         = (o', σ3, EvServeHTTP (http.UserHandler 0) Example.res Example.req :: t2 ++ rest).
Proof.
  destruct (C9_last_handler_wins Example.sniff Example.handlers 0
              [Some (http.UserHandler 1)] (http.UserHandler 0) Example.started
              Example.instance started_instance)
    as (σ' & Hset & Hfield & Hcalls).
  exists σ'. split; [exact Hset |]. split; [exact Hfield |].
  destruct (Hcalls Example.myPanicHandler Example.res Example.req σ' []
              (Str "this did not work"))
    as (o & σ2 & t2 & o' & σ3 & rest & _ & Hrun).
  - reflexivity.
  - discriminate.
  - reflexivity.
  - by exists o', σ3, t2, rest.
Defined.


(** ** The tests of the package, replayed *)

Example TestNoConfigGood :
  Example.response (Example.serve [] Example.myHandler) = (200, "bar"%string).
Proof. vm_compute. reflexivity. Qed.

Example TestDefaultPanic :
  Example.response (Example.serve [Example.options 0 false "" false 0] Example.myPanicHandler)
  = (500, "Internal Server Error" +:+ newline).
Proof. vm_compute. reflexivity. Qed.

Example TestCustomPanicHandler :
  Example.response
    (Example.serve_with [Example.options 0 false "" false 0] (http.UserHandler 0)
       Example.myPanicHandler)
  = (400, "You got 400 yo!"%string).
Proof. vm_compute. reflexivity. Qed.

Example TestDefaultConfig :
  Example.logged (Example.serve [Example.options 0 false "" false 0] Example.myPanicHandler)
  = ["2014/12/05 23:15:11 Recovering from Panic: this did not work" +:+ newline
     +:+ "goroutine 5 [running]: main.f()" +:+ newline].
Proof. vm_compute. reflexivity. Qed.

Example TestStackSize :
  Example.logged (Example.serve [Example.options 12 false "" false 0] Example.myPanicHandler)
  = ["2014/12/05 23:15:11 Recovering from Panic: this did not work" +:+ newline
     +:+ "goroutine 5 " +:+ newline].
Proof. vm_compute. reflexivity. Qed.

Example TestIncludeFullStack :
  Example.logged (Example.serve [Example.options 0 true "" false 0] Example.myPanicHandler)
  = ["2014/12/05 23:15:11 Recovering from Panic: this did not work" +:+ newline
     +:+ "goroutine 5 [running]: main.f() goroutine 1 [sleep]: main.g()" +:+ newline].
Proof. vm_compute. reflexivity. Qed.

Example TestCustomPrefix :
  Example.logged
    (Example.serve [Example.options 0 false "testapp_-_yo" false 0] Example.myPanicHandler)
  = ["[testapp_-_yo] 2014/12/05 23:15:11 Recovering from Panic: this did not work"
     +:+ newline +:+ "goroutine 5 [running]: main.f()" +:+ newline].
Proof. vm_compute. reflexivity. Qed.

Example TestCustomPrefixWithNoBrackets :
  Example.logged
    (Example.serve [Example.options 0 false "testapp_-_yo2()" true 0] Example.myPanicHandler)
  = ["testapp_-_yo2()2014/12/05 23:15:11 Recovering from Panic: this did not work"
     +:+ newline +:+ "goroutine 5 [running]: main.f()" +:+ newline].
Proof. vm_compute. reflexivity. Qed.

Example TestCustomFlags :
  Example.logged
    (Example.serve [Example.options 0 false "" false log.Lshortfile] Example.myPanicHandler)
  = ["recovery.go:88: Recovering from Panic: this did not work" +:+ newline
     +:+ "goroutine 5 [running]: main.f()" +:+ newline].
Proof. vm_compute. reflexivity. Qed.

Example TestCustomFlagsZero :
  Example.logged
    (Example.serve [Example.options 0 false "" false (-1)] Example.myPanicHandler)
  = ["Recovering from Panic: this did not work" +:+ newline
     +:+ "goroutine 5 [running]: main.f()" +:+ newline].
Proof. vm_compute. reflexivity. Qed.

(** [New] looks at the first of the options it is given only. *)
Lemma TestIgnoreMultipleConfigs (opt1 opt2 : Options) (σ : Heap) :
  New [opt1; opt2] σ = New [opt1] σ.
Proof. reflexivity. Qed.


(** * Further properties of the package *)

(** ** Construction *)

(** X1. [New()] and [New] applied to the defaults the README documents build
    the same middleware: the same address, logger, stack settings and panic
    handler. Only the stored copy of the options differs, in the two fields
    ([Out], [OutputFlags]) that [New] resolves without writing them back. *)
Theorem New_defaults_as_documented (σ : Heap) :
  exists (r : nat) (rv rv' : Recovery) (σ1 σ1' : Heap),
    New [] σ = (Returned r, σ1, [])
    /\ New [Options_documented] σ = (Returned r, σ1', [])
    /\ recoveries σ1 !! r = Some rv
    /\ recoveries σ1' !! r = Some rv'
    /\ Logger rv = Logger rv'
    /\ Logger rv = log.mkLogger Stderr EmptyString (Z.lor log.Ldate log.Ltime)
    /\ StackSize (opt rv) = StackSize (opt rv')
    /\ IncludeFullStack (opt rv) = IncludeFullStack (opt rv')
    /\ Prefix (opt rv) = Prefix (opt rv')
    /\ DisableAutoBrackets (opt rv) = DisableAutoBrackets (opt rv')
    /\ panicHandler rv = panicHandler rv'
    /\ Out (opt rv) = None /\ Out (opt rv') = Some Stderr
    /\ OutputFlags (opt rv) = 0 /\ OutputFlags (opt rv') = log.LstdFlags.
Proof.
  unfold New, alloc. cbn -[fresh].
  eexists _, _, _, _, _. split; [reflexivity |]. split; [reflexivity |].
  cbn -[fresh]. rewrite !lookup_insert_eq.
  split; [reflexivity |]. split; [reflexivity |]. by repeat split.
Qed.

(** X2. Resolution is idempotent: feeding the options an instance stores
    back into [New] builds that very instance again, whatever the heap. In
    particular every non-positive stack size gives what 8192 gives. *)
Theorem New_stored_options_rebuild (opts : list Options) (σ σ' : Heap) :
  exists rv : Recovery,
    instance_of (New opts σ) = Some rv
    /\ instance_of (New [opt rv] σ') = Some rv.
Proof.
  assert (Hsup : match opts with [] => Options_zero | o :: _ => o end = supplied opts)
    by (by destruct opts).
  unfold New, alloc. rewrite Hsup. set (o := supplied opts).
  eexists. split; [cbn -[fresh]; by rewrite lookup_insert_eq |].
  cbn -[fresh]. rewrite lookup_insert_eq. f_equal.
  destruct (StackSize o <=? 0) eqn:Hs; cbn.
  - reflexivity.
  - by rewrite Hs.
Qed.

(** X3. Two instances are independent: [New] places each instance at an
    address of its own, and [SetPanicHandler] on the first changes the panic
    handler of the first only. The first keeps its logger and options, the
    second stays as [New] built it, default panic handler included. *)
Theorem instances_are_independent (opts1 opts2 : list Options)
    (h : option http.Handler) (σ : Heap) :
  exists (r1 r2 : nat) (σ1 σ2 σ3 : Heap) (rv1 rv2 : Recovery),
    New opts1 σ = (Returned r1, σ1, [])
    /\ New opts2 σ1 = (Returned r2, σ2, [])
    /\ r1 ≠ r2
    /\ recoveries σ1 !! r1 = Some rv1
    /\ recoveries σ2 !! r2 = Some rv2
    /\ SetPanicHandler r1 h σ2 = (Returned tt, σ3, [])
    /\ recoveries σ3 !! r1 = Some (set_panicHandler rv1 h)
    /\ recoveries σ3 !! r2 = Some rv2
    /\ panicHandler rv2 = Some http.HandlerFunc_defaultPanicHandler.
Proof.
  destruct (New_eq opts1 σ) as (r1 & rv1 & Hnew1 & Hfresh1 & _).
  set (σ1 := with_recoveries σ (<[r1 := rv1]> (recoveries σ))) in *.
  destruct (New_eq opts2 σ1) as (r2 & rv2 & Hnew2 & Hfresh2 & _ & _ & _ & _ & _ & Hdef).
  set (σ2 := with_recoveries σ1 (<[r2 := rv2]> (recoveries σ1))) in *.
  assert (Hr1 : recoveries σ1 !! r1 = Some rv1) by (simpl; by rewrite lookup_insert_eq).
  assert (Hne : r1 ≠ r2) by (intros ->; by rewrite Hr1 in Hfresh2).
  assert (Hr1' : recoveries σ2 !! r1 = Some rv1).
  { simpl. rewrite lookup_insert_ne by done. by rewrite lookup_insert_eq. }
  exists r1, r2, σ1, σ2. eexists _, rv1, rv2.
  split; [exact Hnew1 |]. split; [exact Hnew2 |]. split; [exact Hne |].
  split; [exact Hr1 |]. split; [simpl; by rewrite lookup_insert_eq |].
  split; [by apply SetPanicHandler_eq |].
  split; [simpl; by rewrite lookup_insert_eq |].
  split; [| exact Hdef].
  simpl. rewrite lookup_insert_ne by done. by rewrite lookup_insert_eq.
Qed.

(** X4. With [OutputFlags] set to -1 a logged line carries no date, time or
    source position, whatever the clock and the caller: it is the resolved
    prefix, the message and the closing newline. *)
Theorem no_flags_line_is_prefix_and_message (opts : list Options) (σ0 : Heap) :
  OutputFlags (supplied opts) = -1 ->
  exists rv : Recovery,
    instance_of (New opts σ0) = Some rv
    /\ forall (v : any) (σ : Heap),
        let message :=
          "Recovering from Panic: " +:+ fmt.verb_s v +:+ newline
          +:+ string_of_bytes
                (take (Z.to_nat (StackSize (opt rv)))
                   (StackText (env σ) (IncludeFullStack (opt rv)))) in
        recovery_line rv v σ
        = log.prefix (Logger rv) +:+ message
          +:+ (if last_is (ascii_of_N 10) message then EmptyString else newline).
Proof.
  intros Hflags.
  destruct (New_eq opts σ0) as (r & rv & _ & _ & Hinst & _ & _ & Hflag & _).
  rewrite Hflags in Hflag. simpl in Hflag.
  exists rv. split; [exact Hinst |].
  intros v σ message. unfold recovery_line. rewrite outputLine_shape.
  unfold line_meta. rewrite Hflag.
  destruct (log.caller_position 0 (Caller (env σ))) as [file line].
  by rewrite formatMeta_no_flags, has_zero, append_nil_r.
Qed.

Lemma X4_witness :
  exists rv : Recovery,
    instance_of (New [Example.options 0 false "app" false (-1)] Example.empty) = Some rv
    /\ recovery_line rv (Str "this did not work") Example.empty
       = ("[app] Recovering from Panic: this did not work" +:+ newline
          +:+ "goroutine 5 [running]: main.f()" +:+ newline)%string.
Proof.
  destruct (no_flags_line_is_prefix_and_message
              [Example.options 0 false "app" false (-1)] Example.empty)
    as (rv & Hinst & Hline).
  - reflexivity.
  - exists rv. split; [exact Hinst |].
    rewrite Hline. vm_compute in Hinst. injection Hinst as <-.
    vm_compute. reflexivity.
Defined.

(** ** The recovery path *)

Section Recovery_path.

Variable D : string -> string.
Variable H : nat -> HandlerFn.




Lemma Handler_returns (r : nat) (next : HandlerFn) (w : nat) (req : http.Request)
    (σ σ1 : Heap) (t1 : list Event) :
  next w req σ = (Returned tt, σ1, t1) ->
  Handler D H r next w req σ = (Returned tt, σ1, t1).
Proof.
  intros Hnext. unfold Handler, defer_recover. rewrite Hnext.
  cbn [is_nil negb]. unfold_M. by rewrite app_nil_r.
Qed.



(** X8. [SetPanicHandler(nil)] is accepted, and from then on a recovered
    fault ends in a panic of its own: calling the nil handler is a nil
    dereference, which leaves the wrapper in place of the downstream panic,
    with no response written and nothing logged. *)
Theorem nil_panic_handler_makes_recovery_panic (r : nat) (σ : Heap) (rv : Recovery) :
  recoveries σ !! r = Some rv ->
  exists σ' : Heap,
    SetPanicHandler r None σ = (Returned tt, σ', [])
    /\ forall (next : HandlerFn) (w : nat) (req : http.Request) (σ1 : Heap)
         (t1 : list Event) (v : any),
        next w req σ' = (Panicked v, σ1, t1) ->
        v ≠ Nil ->
        recoveries σ1 !! r = recoveries σ' !! r ->
        Handler D H r next w req σ' = (Panicked nil_dereference, σ1, t1).
Proof.
  intros Hr. eexists. split; [by apply SetPanicHandler_eq |].
  intros next w req σ1 t1 v Hnext Hv Hsame.
  assert (Hr1 : recoveries σ1 !! r = Some (set_panicHandler rv None)).
  { rewrite Hsame. simpl. by rewrite lookup_insert_eq. }
  rewrite (Handler_panicked _ _ _ _ _ _ _ _ _ _ Hnext Hv), Hr1.
  cbn [panicHandler set_panicHandler ServeHTTP]. unfold panic.
  by rewrite app_nil_r.
Qed.

(** X9. The panic handler is read when the fault is recovered, not when the
    request starts: if the downstream handler itself calls [SetPanicHandler]
    and then panics, the handler it has just set is the one called for that
    very request. *)
Theorem swap_by_downstream_is_honoured (r : nat) (h : http.Handler) (v : any)
    (w : nat) (req : http.Request) (σ : Heap) (rv : Recovery) :
  recoveries σ !! r = Some rv ->
  v ≠ Nil ->
  exists (σ1 : Heap) (o : Outcome unit) (σ2 : Heap) (t2 : list Event)
         (o' : Outcome unit) (σ3 : Heap) (rest : list Event),
    swap_then_panic r (Some h) v w req σ = (Panicked v, σ1, [])
    /\ handler_body D H h w req σ1 = (o, σ2, t2)
    /\ Handler D H r (swap_then_panic r (Some h) v) w req σ
       = (o', σ3, EvServeHTTP h w req :: t2 ++ rest).
Proof.
  intros Hr Hv.
  assert (Hnext : swap_then_panic r (Some h) v w req σ
                  = (Panicked v,
                     with_recoveries σ
                       (<[r := set_panicHandler rv (Some h)]> (recoveries σ)), [])).
  { unfold swap_then_panic, mbind, M_bind.
    by rewrite (SetPanicHandler_eq _ _ _ _ Hr). }
  rewrite (Handler_panicked _ _ _ _ _ _ _ _ _ _ Hnext Hv).
  cbn [recoveries with_recoveries]. rewrite lookup_insert_eq.
  cbn [panicHandler set_panicHandler]. rewrite ServeHTTP_eq.
  destruct (handler_body D H h w req _) as [[[[]|v'] σ2] t2] eqn:Hbody.
  - destruct (recoveries σ2 !! r) as [rv2|].
    + eexists _, _, _, _, _, _, _. split; [exact Hnext |]. split; [exact Hbody |].
      reflexivity.
    + eexists _, _, _, _, _, _, []. split; [exact Hnext |]. split; [exact Hbody |].
      by rewrite app_nil_r.
  - eexists _, _, _, _, _, _, []. split; [exact Hnext |]. split; [exact Hbody |].
    by rewrite app_nil_r.
Qed.


(** X11. Wrapping is idempotent where recovery succeeds: if the wrapped
    handler returns normally on a request (because [next] did, or because its
    panic was recovered), then any number of further layers of the same
    middleware around it give the same outcome, heap and trace, so that the
    panic handler is called and the line logged once, not once per layer. *)
Theorem wrapping_again_changes_nothing (r : nat) (n : nat) (next : HandlerFn) (w : nat)
    (req : http.Request) (σ σ' : Heap) (t' : list Event) :
  Handler D H r next w req σ = (Returned tt, σ', t') ->
  wrap D H r (S n) next w req σ = (Returned tt, σ', t').
Proof.
  intros Hone. induction n as [|n IH].
  - exact Hone.
  - change (wrap D H r (S (S n)) next) with (Handler D H r (wrap D H r (S n) next)).
    by apply Handler_returns.
Qed.


End Recovery_path.




Lemma X8_witness :
  exists σ' : Heap,
    SetPanicHandler 0 None Example.started = (Returned tt, σ', [])
    /\ Handler Example.sniff Example.handlers 0 Example.myPanicHandler Example.res
         Example.req σ'
       = (Panicked nil_dereference, σ', []).
Proof.
  destruct (nil_panic_handler_makes_recovery_panic Example.sniff Example.handlers 0
              Example.started Example.instance started_instance)
    as (σ' & Hset & Hruns).
  exists σ'. split; [exact Hset |].
  apply (Hruns Example.myPanicHandler Example.res Example.req σ' []
           (Str "this did not work")).
  - reflexivity.
  - discriminate.
  - reflexivity.
Defined.

Lemma X9_witness :
  exists (o' : Outcome unit) (σ3 : Heap) (t : list Event),
    Handler Example.sniff Example.handlers 0
      (swap_then_panic 0 (Some (http.UserHandler 0)) (Str "this did not work"))
      Example.res Example.req Example.started
    = (o', σ3, EvServeHTTP (http.UserHandler 0) Example.res Example.req :: t).
Proof.
  destruct (swap_by_downstream_is_honoured Example.sniff Example.handlers 0
              (http.UserHandler 0) (Str "this did not work") Example.res Example.req
              Example.started Example.instance started_instance)
    as (σ1 & o & σ2 & t2 & o' & σ3 & rest & _ & _ & Hrun).
  - discriminate.
  - by exists o', σ3, (t2 ++ rest).
Defined.


Lemma X11_witness :
  wrap Example.sniff Example.handlers 0 3 Example.myPanicHandler Example.res
    Example.req Example.started
  = (Returned tt,
     Example.heap_of
       (Handler Example.sniff Example.handlers 0 Example.myPanicHandler Example.res
          Example.req Example.started),
     (Handler Example.sniff Example.handlers 0 Example.myPanicHandler Example.res
        Example.req Example.started).2).
Proof.
  apply (wrapping_again_changes_nothing Example.sniff Example.handlers 0 2
           Example.myPanicHandler Example.res Example.req Example.started).
  vm_compute. reflexivity.
Defined.


(** ** The stack snapshot and [IncludeFullStack] *)


